(** * Gym member system (GYM/gym.py): a shallow embedding of the
    persistence helpers, the face best-match scan, registration, deletion,
    attendance entry/exit and the database reset, with their properties. *)

From Stdlib Require Import List String Ascii Bool ZArith QArith Lia.
Import ListNotations.
Open Scope string_scope.

(** ** Data model *)

(** A row of [members.csv] (columns ID, Name, Email, Mobile, Membership,
    Fee, ImagePath); [deleted_members.csv] has the same shape. *)
Record member := mkMember {
  m_ID : Z;
  m_Name : string;
  m_Email : string;
  m_Mobile : string;
  m_Membership : string;
  m_Fee : Z;
  m_ImagePath : string
}.

(** A row of [attendance.csv] (columns ID, Name, Date, EntryTime, ExitTime,
    Status).  The ID column is written as [str(matched_row["ID"])] and read
    back by [pd.read_csv] as an integer, so [astype(str)] compares decimal
    renderings of integers, i.e. the integers themselves.  An ExitTime
    written as "" is read back as NaN: [None] is NaN, [Some s] a string. *)
Record arec := mkArec {
  a_ID : Z;
  a_Name : string;
  a_Date : string;
  a_EntryTime : string;
  a_ExitTime : option string;
  a_Status : string
}.

(** The content of a CSV file.  [NoColumns] is what
    [pd.DataFrame().to_csv(f, index=False)] writes (lines 18 and 289): no
    header at all, so [pd.read_csv] on it raises [EmptyDataError].
    [Table rows] is a file with the table's header row and its rows.
    [pd.read_csv] re-infers column types (an all-numeric text column comes
    back as integers, an empty cell as NaN); that re-inference is not
    modelled, so the rows are taken to read back as written, which holds
    for the integer ID and Fee columns, the image paths, the dates, times
    and statuses the properties below are about. *)
Inductive csv (R : Type) : Type :=
| NoColumns : csv R
| Table : list R -> csv R.
Arguments NoColumns {R}.
Arguments Table {R} _.

(** [pd.read_csv]: [None] stands for the raised [EmptyDataError]. *)
Definition read_csv {R} (f : csv R) : option (list R) :=
  match f with
  | NoColumns => None
  | Table rows => Some rows
  end.

(** The on-disk state the script works on. [member_images] lists the
    files of the [member_images/] directory, each with the photo it
    holds. *)
Record store := mkStore {
  members_csv : csv member;
  attendance_csv : csv arec;
  deleted_csv : csv member;
  member_images : list (string * string)
}.

Definition set_members (st : store) (f : csv member) : store :=
  mkStore f (attendance_csv st) (deleted_csv st) (member_images st).
Definition set_attendance (st : store) (f : csv arec) : store :=
  mkStore (members_csv st) f (deleted_csv st) (member_images st).
Definition set_deleted (st : store) (f : csv member) : store :=
  mkStore (members_csv st) (attendance_csv st) f (member_images st).
Definition set_images (st : store) (l : list (string * string)) : store :=
  mkStore (members_csv st) (attendance_csv st) (deleted_csv st) l.

(** [load_members] / [load_attendance]: the [except] branch returns an
    empty frame with the canonical columns. *)
Definition load_members (st : store) : list member :=
  match read_csv (members_csv st) with Some rs => rs | None => [] end.
Definition load_attendance (st : store) : list arec :=
  match read_csv (attendance_csv st) with Some rs => rs | None => [] end.

Definition save_members (st : store) (rs : list member) : store :=
  set_members st (Table rs).
Definition save_attendance (st : store) (rs : list arec) : store :=
  set_attendance st (Table rs).

(** ** Small string helpers *)

(** [str(n)] for a non-negative integer. *)
Fixpoint digits_rev (fuel : nat) (n : N) : list ascii :=
  match fuel with
  | O => []
  | S k =>
      let d := ascii_of_N (48 + N.modulo n 10) in
      if N.ltb n 10 then [d] else d :: digits_rev k (N.div n 10)
  end.

Definition str_Z (z : Z) : string :=
  let n := Z.to_N z in
  string_of_list_ascii (rev (digits_rev (S (N.to_nat (N.log2 n))) n)).

(** [name.replace(' ', '_')]. *)
Fixpoint replace_space (s : string) : string :=
  match s with
  | EmptyString => EmptyString
  | String c r =>
      String (if Ascii.eqb c " "%char then "_"%char else c) (replace_space r)
  end.

(** Python truthiness of a string. *)
Definition truthy (s : string) : bool := negb (String.eqb s "").

(** ** Face verification and the best-match scan *)

(** Floating-point distances are modelled as rationals. *)
Definition Qltb (x y : Q) : bool := negb (Qle_bool y x).

(** The sentinel distance [1.0] of lines 65, 180 and 229. *)
Definition sentinel : Q := 1.

(** One loop iteration of lines 182-186 (resp. 231-235): [match, dist]
    are the outputs of [try_verify_faces] for [row]. *)
Definition scan_step (acc : option member * Q)
    (c : member * (bool * Q)) : option member * Q :=
  let '(matched_row, best_distance) := acc in
  let '(row, (match_, dist)) := c in
  if match_ && Qltb dist best_distance then (Some row, dist)
  else (matched_row, best_distance).

(** The scan over the verifier outputs, in [members.iterrows()] order,
    seeded with [(None, 1.0)]. *)
Definition scan (cands : list (member * (bool * Q))) : option member * Q :=
  fold_left scan_step cands (None, sentinel).

(** The candidates produced by verifying the probe against each member's
    [ImagePath]; [verify] stands for [try_verify_faces(img_path, _)]
    (its [except] branch yields [(false, 1.0)]). *)
Definition candidates (verify : string -> bool * Q) (ms : list member)
    : list (member * (bool * Q)) :=
  map (fun r => (r, verify (m_ImagePath r))) ms.

Definition best_match (verify : string -> bool * Q) (ms : list member)
    : option member :=
  fst (scan (candidates verify ms)).

(** ** Attendance – Entry (lines 167-211) *)

Inductive entry_outcome :=
| EntryNoMembers      (* "No members registered." *)
| EntryNoMatch        (* "No matching member found." *)
| EntryAlreadyMarked  (* "Entry already marked today." *)
| EntryMarked (m : member).

(** [exists] of line 195: the records of member [mid] dated [today]. *)
Definition same_day (mid : Z) (today : string) (a : arec) : bool :=
  Z.eqb (a_ID a) mid && String.eqb (a_Date a) today.

(** Lines 175-211, run after the probe photo is saved (see [entry_page]).
    [today] is [now.strftime("%Y-%m-%d")], [now_time] is
    [now.strftime("%H:%M:%S")].  The new row's ExitTime is written as ""
    and so read back as NaN ([None]). *)
Definition mark_entry (verify : string -> bool * Q) (today now_time : string)
    (st : store) : entry_outcome * store :=
  let members := load_members st in
  match members with
  | [] => (EntryNoMembers, st)
  | _ =>
      match best_match verify members with
      | None => (EntryNoMatch, st)
      | Some row =>
          let attendance := load_attendance st in
          match filter (same_day (m_ID row) today) attendance with
          | _ :: _ => (EntryAlreadyMarked, st)
          | [] =>
              let new_entry := mkArec (m_ID row) (m_Name row) today now_time
                                      None "Present" in
              (EntryMarked row, save_attendance st (attendance ++ [new_entry]))
          end
      end
  end.

(** ** Attendance – Exit (lines 216-256) *)

Inductive exit_outcome :=
| ExitNoMembers   (* "No members registered." *)
| ExitNoMatch     (* "No matching member found." *)
| ExitNoOpen      (* "No open entry found for today." *)
| ExitMarked (m : member).

(** [ExitTime.isna() | ExitTime == ""]. *)
Definition exit_empty (e : option string) : bool :=
  match e with None => true | Some s => String.eqb s "" end.

(** [mask & (open)] of lines 244-245. *)
Definition open_for (mid : Z) (today : string) (a : arec) : bool :=
  same_day mid today a && exit_empty (a_ExitTime a).

(** Lines 251-252 applied to one row. *)
Definition close_rec (now_time : string) (a : arec) : arec :=
  mkArec (a_ID a) (a_Name a) (a_Date a) (a_EntryTime a) (Some now_time) "Exited".

(** [idx = open_rows.index[0]] followed by the two [attendance.at[idx, _]]
    updates: the first row satisfying [p] is rewritten by [f]; [None] when
    [open_rows] is empty. *)
Fixpoint update_first (p : arec -> bool) (f : arec -> arec) (l : list arec)
    : option (list arec) :=
  match l with
  | [] => None
  | a :: r => if p a then Some (f a :: r) else option_map (cons a) (update_first p f r)
  end.

(** Lines 224-256, run after the probe photo is saved (see [exit_page]). *)
Definition mark_exit (verify : string -> bool * Q) (today now_time : string)
    (st : store) : exit_outcome * store :=
  let members := load_members st in
  match members with
  | [] => (ExitNoMembers, st)
  | _ =>
      match best_match verify members with
      | None => (ExitNoMatch, st)
      | Some row =>
          let attendance := load_attendance st in
          match update_first (open_for (m_ID row) today) (close_rec now_time) attendance with
          | None => (ExitNoOpen, st)
          | Some attendance' => (ExitMarked row, save_attendance st attendance')
          end
      end
  end.

(** ** Register Member (lines 87-123) *)

Inductive reg_outcome :=
| RegMissingFields   (* "Please fill all fields and capture image." *)
| RegRaised          (* [img.save(img_path)] raised: nothing is written *)
| Registered (new_id : Z).

(** The photo's file name in [member_images/] (line 103). *)
Definition photo_file (new_id : Z) (name : string) : string :=
  str_Z new_id ++ "_" ++ replace_space name ++ ".jpg".

Fixpoint has_char (c : ascii) (s : string) : bool :=
  match s with
  | EmptyString => false
  | String d r => Ascii.eqb c d || has_char c r
  end.

(** Whether [img.save("member_images/" + f)] can create the file (line
    105): a '/' in [f] names a sub-directory of [member_images/], which the
    script never creates ([FileNotFoundError]); a NUL byte is refused
    ([ValueError]); a file name over 255 bytes is too long for the file
    system ([OSError]). *)
Definition img_save_ok (f : string) : bool :=
  negb (has_char "/"%char f) && negb (has_char "000"%char f)
  && Nat.leb (String.length f) 255.

(** [img.save(img_path)] into [member_images/]: a new file, or the existing
    file of that name overwritten with the new photo. *)
Definition add_image (f photo : string) (l : list (string * string))
    : list (string * string) :=
  if existsb (fun e => String.eqb (fst e) f) l
  then map (fun e => if String.eqb (fst e) f then (f, photo) else e) l
  else l ++ [(f, photo)].

(** [photo] is the value of [st.camera_input]: [None] when no picture was
    taken.  The validation is [all([name, email, mobile, membership,
    photo])]. *)
Definition register (name email mobile membership : string) (fee : Z)
    (photo : option string) (st : store) : reg_outcome * store :=
  match photo with
  | Some pic =>
    if negb (truthy name && truthy email && truthy mobile && truthy membership)
    then (RegMissingFields, st)
    else
      let members := load_members st in
      let new_id := match members with
                    | [] => 1%Z
                    | _ => (Z.of_nat (List.length members) + 1)%Z
                    end in
      let img_file := photo_file new_id name in
      let img_path := "member_images/" ++ img_file in
      if negb (img_save_ok img_file) then (RegRaised, st)
      else
        let st1 := set_images st (add_image img_file pic (member_images st)) in
        let new_data := mkMember new_id name email mobile membership fee img_path in
        (Registered new_id, save_members st1 (members ++ [new_data]))
  | None => (RegMissingFields, st)
  end.

(** The arguments of one press of "Register Member". *)
Record reg_input := mkRegInput {
  r_name : string; r_email : string; r_mobile : string;
  r_membership : string; r_fee : Z; r_photo : option string
}.

Definition register_input (i : reg_input) (st : store) : reg_outcome * store :=
  register (r_name i) (r_email i) (r_mobile i) (r_membership i) (r_fee i) (r_photo i) st.

Definition reg_valid (i : reg_input) : bool :=
  truthy (r_name i) && truthy (r_email i) && truthy (r_mobile i)
  && truthy (r_membership i) && match r_photo i with Some _ => true | None => false end.

(** A sequence of registrations, each run on the store left by the
    previous one. *)
Fixpoint register_all (ins : list reg_input) (st : store) : store :=
  match ins with
  | [] => st
  | i :: r => register_all r (snd (register_input i st))
  end.

(** ** Delete Member (lines 151-162) *)

Inductive del_outcome :=
| DelNoMembers    (* "No members registered yet." *)
| Deleted         (* "Member deleted successfully." *)
| DelRaised.      (* [pd.read_csv("deleted_members.csv")] raised *)

Definition delete_member (selected_id : Z) (st : store) : del_outcome * store :=
  let members := load_members st in
  match members with
  | [] => (DelNoMembers, st)
  | _ =>
      let del_member := filter (fun r => Z.eqb (m_ID r) selected_id) members in
      let members' := filter (fun r => negb (Z.eqb (m_ID r) selected_id)) members in
      let st1 := save_members st members' in
      match del_member with
      | [] => (Deleted, st1)
      | _ =>
          match read_csv (deleted_csv st) with
          | None => (DelRaised, st1)
          | Some archive => (Deleted, set_deleted st1 (Table (archive ++ del_member)))
          end
      end
  end.

(** ** Reset DB (lines 285-292) *)

Definition reset (st : store) : store :=
  mkStore NoColumns NoColumns NoColumns [].

(** The store right after the start-up code (lines 14-18) on a fresh
    directory. *)
Definition fresh_store : store := mkStore NoColumns NoColumns NoColumns [].

(** ** The attendance pages (lines 167-174 and 216-223) *)

(** The working directory around the store: besides the CSV files and
    [member_images/], the entry and exit pages write their probe photo to
    [temp_entry.jpg] and [temp_exit.jpg] ([None]: no such file yet). *)
Record world := mkWorld {
  disk : store;
  temp_entry : option string;
  temp_exit : option string
}.

(** A press of the entry page with a picture [photo] taken: lines 172-174
    save it as [temp_entry.jpg]; the rest of the page is [mark_entry],
    [verify] being [try_verify_faces] on that file. *)
Definition entry_page (verify : string -> bool * Q) (today now_time photo : string)
    (w : world) : entry_outcome * world :=
  let '(o, st') := mark_entry verify today now_time (disk w) in
  (o, mkWorld st' (Some photo) (temp_exit w)).

(** The same for the exit page and [temp_exit.jpg] (lines 221-223). *)
Definition exit_page (verify : string -> bool * Q) (today now_time photo : string)
    (w : world) : exit_outcome * world :=
  let '(o, st') := mark_exit verify today now_time (disk w) in
  (o, mkWorld st' (temp_entry w) (Some photo)).

(** Reset DB only clears the three CSV files and [member_images/]; the
    probe photos in the working directory stay. *)
Definition reset_page (w : world) : world :=
  mkWorld (reset (disk w)) (temp_entry w) (temp_exit w).

(** ** Update Member (lines 128-149) *)

Inductive upd_outcome :=
| UpdNoMembers   (* "No members registered yet." *)
| Updated.       (* "Member updated successfully." *)

(** [members.loc[members["ID"] == int(selected_id), [Name, Email, Mobile,
    Membership, Fee]] = [...]]: every row with that ID gets the five new
    values; ID and ImagePath are kept. *)
Definition update_row (selected_id : Z) (name email mobile membership : string)
    (fee : Z) (r : member) : member :=
  if Z.eqb (m_ID r) selected_id
  then mkMember (m_ID r) name email mobile membership fee (m_ImagePath r)
  else r.

Definition update_member (selected_id : Z) (name email mobile membership : string)
    (fee : Z) (st : store) : upd_outcome * store :=
  let members := load_members st in
  match members with
  | [] => (UpdNoMembers, st)
  | _ => (Updated,
          save_members st (map (update_row selected_id name email mobile membership fee) members))
  end.

(** ** Lemmas on the scan *)

Lemma Qltb_spec (x y : Q) : Qltb x y = true <-> x < y.
Proof.
  unfold Qltb. rewrite negb_true_iff. split; intro H.
  - apply Qnot_le_lt. intro Hle. apply Qle_bool_iff in Hle. congruence.
  - destruct (Qle_bool y x) eqn:E; [|reflexivity].
    apply Qle_bool_iff in E. exfalso. exact (Qlt_not_le _ _ H E).
Qed.

Lemma Qltb_false (x y : Q) : Qltb x y = false -> y <= x.
Proof.
  intro H. apply Qnot_lt_le. intro Hlt. apply Qltb_spec in Hlt. congruence.
Qed.

(** Either the accumulator survives the whole pass and no matched candidate
    beats its bound, or some candidate [i] is the final best: it is
    matched, below the bound, no matched candidate is below it and every
    matched candidate before it is strictly above it. *)
Lemma fold_scan_cases (cands : list (member * (bool * Q))) (o : option member) (b : Q) :
  let res := fold_left scan_step cands (o, b) in
  (res = (o, b) /\ forall r d, In (r, (true, d)) cands -> b <= d)
  \/ (exists i r, nth_error cands i = Some (r, (true, snd res))
        /\ fst res = Some r /\ snd res < b
        /\ forall j r' mt d, nth_error cands j = Some (r', (mt, d)) -> mt = true ->
             snd res <= d /\ ((j < i)%nat -> snd res < d)).
Proof.
  revert o b. induction cands as [|[r [mt d]] rest IH]; intros o b res.
  - left. split; [reflexivity | intros ? ? []].
  - subst res. simpl. destruct (mt && Qltb d b) eqn:Hstep.
    + apply andb_true_iff in Hstep as [-> Hlt]. apply Qltb_spec in Hlt.
      destruct (IH (Some r) d) as [[Hres Hall] | (i & r' & Hn & Hf & Hlt' & Hj)].
      * right. exists O, r. rewrite Hres. simpl.
        split; [reflexivity|]. split; [reflexivity|]. split; [exact Hlt|].
        intros [|j] r'' mt' d' Hn Hm; simpl in Hn.
        -- injection Hn as <- <- <-. split; [apply Qle_refl | lia].
        -- split; [|lia]. subst mt'. apply (Hall r''). eapply nth_error_In; eauto.
      * right. exists (S i), r'. split; [exact Hn|]. split; [exact Hf|].
        split; [eapply Qlt_trans; eauto|].
        intros [|j] r'' mt' d' Hn' Hm; simpl in Hn'.
        -- injection Hn' as <- <- <-. split; [apply Qlt_le_weak, Hlt' | intros _; exact Hlt'].
        -- destruct (Hj j r'' mt' d' Hn' Hm) as [H1 H2]. split; [exact H1 | intro; apply H2; lia].
    + destruct (IH o b) as [[Hres Hall] | (i & r' & Hn & Hf & Hlt' & Hj)].
      * left. split; [exact Hres|]. intros r'' d' [Heq | Hin].
        -- injection Heq as Hr Hm Hd. subst. simpl in Hstep. apply Qltb_false, Hstep.
        -- eapply Hall; eauto.
      * right. exists (S i), r'. split; [exact Hn|]. split; [exact Hf|]. split; [exact Hlt'|].
        intros [|j] r'' mt' d' Hn' Hm; simpl in Hn'.
        -- injection Hn' as <- <- <-. subst mt. simpl in Hstep. apply Qltb_false in Hstep.
           split; [apply Qlt_le_weak; eapply Qlt_le_trans; eauto
                  | intros _; eapply Qlt_le_trans; eauto].
        -- destruct (Hj j r'' mt' d' Hn' Hm) as [H1 H2]. split; [exact H1 | intro; apply H2; lia].
Qed.

(** The scan selects nothing exactly when no matched candidate is below the
    sentinel. *)
Lemma scan_none_iff (cands : list (member * (bool * Q))) :
  fst (scan cands) = None <-> forall r d, In (r, (true, d)) cands -> sentinel <= d.
Proof.
  unfold scan. destruct (fold_scan_cases cands None sentinel)
    as [[Hres Hall] | (i & r & Hn & Hf & Hlt & Hj)].
  - rewrite Hres. simpl. split; [intros _; exact Hall | reflexivity].
  - rewrite Hf. split; [discriminate|]. intro Hall.
    apply nth_error_In in Hn. apply Hall in Hn. exfalso. exact (Qlt_not_le _ _ Hlt Hn).
Qed.

(** What the scan selects, when it selects something. *)
Lemma scan_some (cands : list (member * (bool * Q))) (r : member) :
  fst (scan cands) = Some r ->
  exists i d, nth_error cands i = Some (r, (true, d)) /\ d < sentinel
    /\ forall j r' mt d', nth_error cands j = Some (r', (mt, d')) -> mt = true ->
         d <= d' /\ ((j < i)%nat -> d < d').
Proof.
  unfold scan. intro Hs. destruct (fold_scan_cases cands None sentinel)
    as [[Hres Hall] | (i & r' & Hn & Hf & Hlt & Hj)].
  - rewrite Hres in Hs. discriminate.
  - rewrite Hf in Hs. injection Hs as ->. exists i, (snd (fold_left scan_step cands (None, sentinel))).
    auto.
Qed.

Lemma in_candidates (verify : string -> bool * Q) (ms : list member) r d :
  In (r, (true, d)) (candidates verify ms) <-> In r ms /\ verify (m_ImagePath r) = (true, d).
Proof.
  unfold candidates. rewrite in_map_iff. split.
  - intros (x & Hx & Hin). injection Hx as -> Hv. auto.
  - intros [Hin Hv]. exists r. rewrite Hv. auto.
Qed.

Lemma best_match_nil (verify : string -> bool * Q) : best_match verify [] = None.
Proof. reflexivity. Qed.

(** ** Concrete data for the examples *)

Definition ann : member :=
  mkMember 1 "Ann Lee" "ann@example.com" "9000000001" "Monthly" 1000
           "member_images/1_Ann_Lee.jpg".
Definition bob : member :=
  mkMember 2 "Bob" "bob@example.com" "9000000002" "Yearly" 9000
           "member_images/2_Bob.jpg".

Definition ann_reg : reg_input :=
  mkRegInput "Ann Lee" "ann@example.com" "9000000001" "Monthly" 0 (Some "capture").

(** A store with Ann and Bob registered and no attendance yet. *)
Definition two_members : store :=
  mkStore (Table [ann; bob]) NoColumns NoColumns
          [("1_Ann_Lee.jpg", "ann photo"); ("2_Bob.jpg", "bob photo")].

(** A verifier that matches every reference photo at distance [d]. *)
Definition verify_all (d : Q) (_ : string) : bool * Q := (true, d).

(** A verifier that recognises Ann only, at distance 0.2. *)
Definition verify_ann (p : string) : bool * Q :=
  if String.eqb p (m_ImagePath ann) then (true, 1 # 5) else (false, 1).

(** A verifier that matches Ann at distance 0.2 and everybody else at
    distance 1.0. *)
Definition verify_mixed (p : string) : bool * Q :=
  if String.eqb p (m_ImagePath ann) then (true, 1 # 5) else (true, 1).

(** ** C1: the best-match scan *)

(** C1 (amended): for any sequence of verifier outputs, the scan of
    [mark_entry]/[mark_exit] selects nothing exactly when no candidate is
    matched with a distance below the sentinel 1.0; when it selects a
    member, that member is a matched candidate below 1.0 whose distance is
    the minimum over all matched candidates, and every matched candidate
    enumerated before it has a strictly larger distance (ties go to the
    earlier one). *)
Theorem C1_scan_first_minimum :
  forall cands : list (member * (bool * Q)),
    (fst (scan cands) = None <->
       forall r d, In (r, (true, d)) cands -> 1 <= d)
    /\ forall r, fst (scan cands) = Some r ->
       exists i d, nth_error cands i = Some (r, (true, d)) /\ d < 1
         /\ forall j r' mt d', nth_error cands j = Some (r', (mt, d')) -> mt = true ->
              d <= d' /\ ((j < i)%nat -> d < d').
Proof.
  intro cands. split.
  - apply scan_none_iff.
  - apply scan_some.
Qed.

Lemma C1_witness :
  let cands := [(ann, (true, 1 # 2)); (bob, (true, 1 # 2))] in
  fst (scan cands) = Some ann
  /\ ((fst (scan cands) = None <-> forall r d, In (r, (true, d)) cands -> 1 <= d)
      /\ forall r, fst (scan cands) = Some r ->
         exists i d, nth_error cands i = Some (r, (true, d)) /\ d < 1
           /\ forall j r' mt d', nth_error cands j = Some (r', (mt, d')) -> mt = true ->
                d <= d' /\ ((j < i)%nat -> d < d')).
Proof.
  intro cands. split; [vm_compute; reflexivity|].
  exact (C1_scan_first_minimum cands).
Defined.

(** C1 counterexample: Ann is the only candidate and is matched at
    distance 1.0, so she is the first matched candidate of minimum
    distance, yet the scan selects nobody. *)
Lemma C1_counterexample : fst (scan [(ann, (true, 1))]) <> Some ann.
Proof. vm_compute. discriminate. Qed.

(** ** C9: matches at distance >= 1.0 are never selected *)

(** A matched candidate at distance >= 1.0 is never the best match. *)
Lemma best_match_not_at_or_above (verify : string -> bool * Q) (ms : list member) m d :
  verify (m_ImagePath m) = (true, d) -> 1 <= d -> best_match verify ms <> Some m.
Proof.
  intros Hv Hd Hb. destruct (scan_some _ _ Hb) as (i & d' & Hn & Hlt & _).
  apply nth_error_In, in_candidates in Hn as [_ Hv'].
  rewrite Hv in Hv'. injection Hv' as <-. exact (Qlt_not_le _ _ Hlt Hd).
Qed.

Lemma mark_entry_marked_best (verify : string -> bool * Q) (today now_time : string) st m :
  fst (mark_entry verify today now_time st) = EntryMarked m ->
  best_match verify (load_members st) = Some m.
Proof.
  unfold mark_entry. destruct (load_members st); [discriminate|].
  destruct (best_match verify _) as [row|]; [|discriminate].
  destruct (filter _ _); [|discriminate]. simpl. intro H. injection H as ->. reflexivity.
Qed.

Lemma mark_exit_marked_best (verify : string -> bool * Q) (today now_time : string) st m :
  fst (mark_exit verify today now_time st) = ExitMarked m ->
  best_match verify (load_members st) = Some m.
Proof.
  unfold mark_exit. destruct (load_members st); [discriminate|].
  destruct (best_match verify _) as [row|]; [|discriminate].
  destruct (update_first _ _ _); [|discriminate]. simpl. intro H. injection H as ->. reflexivity.
Qed.

(** C9: whatever the other candidates report, a member whose verification
    reports a match at distance >= 1.0 is never selected, neither by the
    scan nor as the member whose entry or exit gets marked; and when every
    matched candidate has distance >= 1.0, both [mark_entry] and
    [mark_exit] report "No matching member found" on a non-empty member
    table, leaving the store unchanged. *)
Theorem C9_no_selection_at_or_above_sentinel :
  forall (verify : string -> bool * Q) (today now_time : string) (st : store),
    (forall m d, verify (m_ImagePath m) = (true, d) -> 1 <= d ->
       best_match verify (load_members st) <> Some m
       /\ fst (mark_entry verify today now_time st) <> EntryMarked m
       /\ fst (mark_exit verify today now_time st) <> ExitMarked m)
    /\ (load_members st <> [] ->
        (forall r d, In r (load_members st) -> verify (m_ImagePath r) = (true, d) -> 1 <= d) ->
        best_match verify (load_members st) = None
        /\ mark_entry verify today now_time st = (EntryNoMatch, st)
        /\ mark_exit verify today now_time st = (ExitNoMatch, st)).
Proof.
  intros verify today now_time st. split.
  - intros m d Hv Hd. assert (Hn := best_match_not_at_or_above verify (load_members st) m d Hv Hd).
    split; [exact Hn|]. split.
    + intro H. exact (Hn (mark_entry_marked_best _ _ _ _ _ H)).
    + intro H. exact (Hn (mark_exit_marked_best _ _ _ _ _ H)).
  - intros Hne Hall.
    assert (Hb : best_match verify (load_members st) = None).
    { unfold best_match. apply scan_none_iff. intros r d Hin.
      apply in_candidates in Hin as [Hin Hv]. exact (Hall r d Hin Hv). }
    unfold mark_entry, mark_exit.
    destruct (load_members st) as [|m ms] eqn:E; [contradiction|].
    rewrite Hb. auto.
Qed.

Lemma C9_witness :
  (verify_mixed (m_ImagePath bob) = (true, 1) /\ 1 <= 1
   /\ best_match verify_mixed (load_members two_members) = Some ann
   /\ (best_match verify_mixed (load_members two_members) <> Some bob
       /\ fst (mark_entry verify_mixed "2026-10-18" "09:00:00" two_members) <> EntryMarked bob
       /\ fst (mark_exit verify_mixed "2026-10-18" "09:00:00" two_members) <> ExitMarked bob))
  /\ (load_members two_members <> []
      /\ (forall r d, In r (load_members two_members) ->
            verify_all 1 (m_ImagePath r) = (true, d) -> 1 <= d)
      /\ (best_match (verify_all 1) (load_members two_members) = None
          /\ mark_entry (verify_all 1) "2026-10-18" "09:00:00" two_members
             = (EntryNoMatch, two_members)
          /\ mark_exit (verify_all 1) "2026-10-18" "09:00:00" two_members
             = (ExitNoMatch, two_members))).
Proof.
  assert (Hv : verify_mixed (m_ImagePath bob) = (true, 1)) by reflexivity.
  assert (Hd : 1 <= 1) by apply Qle_refl.
  assert (Hb : best_match verify_mixed (load_members two_members) = Some ann)
    by (vm_compute; reflexivity).
  assert (Hne : load_members two_members <> []) by discriminate.
  assert (Hall : forall r d, In r (load_members two_members) ->
            verify_all 1 (m_ImagePath r) = (true, d) -> 1 <= d).
  { intros r d _ Hv'. injection Hv' as <-. apply Qle_refl. }
  split.
  - split; [exact Hv|]. split; [exact Hd|]. split; [exact Hb|].
    exact (proj1 (C9_no_selection_at_or_above_sentinel verify_mixed "2026-10-18" "09:00:00"
                    two_members) bob 1 Hv Hd).
  - split; [exact Hne|]. split; [exact Hall|].
    exact (proj2 (C9_no_selection_at_or_above_sentinel (verify_all 1) "2026-10-18" "09:00:00"
                    two_members) Hne Hall).
Defined.

(** ** C2: the "no matching member" failure of [mark_entry] *)

(** C2 (amended): on a non-empty member table, [mark_entry] fails with
    "No matching member found" exactly when no member reports
    [matched = true] with a distance below 1.0; otherwise the best match is
    taken and the operation reaches the attendance step ("Entry already
    marked today" or a new record for that member). *)
Theorem C2_entry_no_match_iff :
  forall (verify : string -> bool * Q) (today now_time : string) (st : store),
    load_members st <> [] ->
    (fst (mark_entry verify today now_time st) = EntryNoMatch <->
       forall r d, In r (load_members st) -> verify (m_ImagePath r) = (true, d) -> 1 <= d)
    /\ forall m, best_match verify (load_members st) = Some m ->
         fst (mark_entry verify today now_time st) = EntryAlreadyMarked
         \/ fst (mark_entry verify today now_time st) = EntryMarked m.
Proof.
  intros verify today now_time st Hne.
  assert (Hiff : best_match verify (load_members st) = None <->
            forall r d, In r (load_members st) -> verify (m_ImagePath r) = (true, d) -> 1 <= d).
  { unfold best_match. rewrite scan_none_iff. split.
    - intros H r d Hin Hv. apply (H r d). apply in_candidates. auto.
    - intros H r d Hin. apply in_candidates in Hin as [Hin Hv]. exact (H r d Hin Hv). }
  unfold mark_entry. rewrite <- Hiff.
  destruct (load_members st) as [|m0 ms] eqn:E; [contradiction|].
  split.
  - destruct (best_match verify (m0 :: ms)) as [m|].
    + destruct (filter _ _) as [|a l]; simpl; split; congruence.
    + simpl. split; reflexivity.
  - intros m Hm. rewrite Hm. destruct (filter _ _) as [|a l]; simpl; auto.
Qed.

Lemma C2_witness :
  load_members two_members <> []
  /\ ((fst (mark_entry verify_ann "2026-10-18" "09:00:00" two_members) = EntryNoMatch <->
       forall r d, In r (load_members two_members) ->
         verify_ann (m_ImagePath r) = (true, d) -> 1 <= d)
      /\ forall m, best_match verify_ann (load_members two_members) = Some m ->
         fst (mark_entry verify_ann "2026-10-18" "09:00:00" two_members) = EntryAlreadyMarked
         \/ fst (mark_entry verify_ann "2026-10-18" "09:00:00" two_members) = EntryMarked m).
Proof.
  assert (Hne : load_members two_members <> []) by discriminate.
  split; [exact Hne|].
  exact (C2_entry_no_match_iff verify_ann "2026-10-18" "09:00:00" two_members Hne).
Defined.

(** C2 counterexample: every member reports [matched = true] (at distance
    1.0), yet [mark_entry] fails with "No matching member found". *)
Lemma C2_counterexample :
  (forall r, In r (load_members two_members) -> fst (verify_all 1 (m_ImagePath r)) = true)
  /\ fst (mark_entry (verify_all 1) "2026-10-18" "09:00:00" two_members) = EntryNoMatch.
Proof.
  split.
  - intros r _. reflexivity.
  - vm_compute. reflexivity.
Qed.

(** ** Lemmas on the attendance updates *)

Lemma best_match_some_nonempty (verify : string -> bool * Q) (ms : list member) m :
  best_match verify ms = Some m -> ms <> [].
Proof. intros H ->. rewrite best_match_nil in H. discriminate. Qed.

Lemma update_first_none (p : arec -> bool) (f : arec -> arec) (l : list arec) :
  (forall a, In a l -> p a = false) -> update_first p f l = None.
Proof.
  induction l as [|x l IH]; intro H; simpl; [reflexivity|].
  rewrite (H x (or_introl eq_refl)). rewrite IH; [reflexivity|].
  intros a Ha. apply H. right. exact Ha.
Qed.

Lemma update_first_some (p : arec -> bool) (f : arec -> arec) (l : list arec) :
  (exists a, In a l /\ p a = true) ->
  exists pre a post, l = (pre ++ a :: post)%list /\ (forall x, In x pre -> p x = false)
    /\ p a = true /\ update_first p f l = Some ((pre ++ f a :: post)%list).
Proof.
  induction l as [|x l IH]; intros (a & Hin & Hp); [destruct Hin|].
  simpl. destruct (p x) eqn:Hx.
  - exists [], x, l. simpl. repeat split; auto. intros ? [].
  - destruct Hin as [-> | Hin]; [congruence|].
    destruct IH as (pre & a' & post & Hl & Hpre & Ha' & Hu); [eauto|].
    exists (x :: pre), a', post. rewrite Hu. simpl.
    split; [rewrite Hl; reflexivity|]. split; [|split; [exact Ha' | reflexivity]].
    intros y [<- | Hy]; auto.
Qed.

Lemma load_members_save_attendance (st : store) (rs : list arec) :
  load_members (save_attendance st rs) = load_members st.
Proof. reflexivity. Qed.

Lemma load_attendance_save_attendance (st : store) (rs : list arec) :
  load_attendance (save_attendance st rs) = rs.
Proof. reflexivity. Qed.

(** An attendance table where Ann is in the gym on 2026-10-18. *)
Definition ann_in : arec := mkArec 1 "Ann Lee" "2026-10-18" "09:00:00" None "Present".
Definition bob_out : arec := mkArec 2 "Bob" "2026-10-18" "07:00:00" (Some "08:00:00") "Exited".
Definition ann_present : store :=
  mkStore (Table [ann; bob]) (Table [bob_out; ann_in]) NoColumns
          [("1_Ann_Lee.jpg", "ann photo"); ("2_Bob.jpg", "bob photo")].

(** ** C3: no second entry on the same day *)

(** C3: when the attendance table already holds a record of the matched
    member dated today, [mark_entry] answers "Entry already marked today"
    and the whole store, attendance table included, is unchanged. *)
Theorem C3_entry_already_marked :
  forall (verify : string -> bool * Q) (today now_time : string) (st : store) m a,
    best_match verify (load_members st) = Some m ->
    In a (load_attendance st) -> same_day (m_ID m) today a = true ->
    mark_entry verify today now_time st = (EntryAlreadyMarked, st).
Proof.
  intros verify today now_time st m a Hm Hin Hsd.
  assert (Hne := best_match_some_nonempty _ _ _ Hm).
  unfold mark_entry. destruct (load_members st) as [|m0 ms]; [contradiction|].
  rewrite Hm.
  assert (Hf : In a (filter (same_day (m_ID m) today) (load_attendance st)))
    by (apply filter_In; auto).
  destruct (filter _ _); [destruct Hf | reflexivity].
Qed.

Lemma C3_witness :
  best_match verify_ann (load_members ann_present) = Some ann
  /\ In ann_in (load_attendance ann_present)
  /\ same_day (m_ID ann) "2026-10-18" ann_in = true
  /\ mark_entry verify_ann "2026-10-18" "10:00:00" ann_present = (EntryAlreadyMarked, ann_present).
Proof.
  assert (H1 : best_match verify_ann (load_members ann_present) = Some ann) by (vm_compute; reflexivity).
  assert (H2 : In ann_in (load_attendance ann_present)) by (simpl; auto).
  assert (H3 : same_day (m_ID ann) "2026-10-18" ann_in = true) by reflexivity.
  split; [exact H1|]. split; [exact H2|]. split; [exact H3|].
  exact (C3_entry_already_marked verify_ann "2026-10-18" "10:00:00" ann_present ann ann_in H1 H2 H3).
Defined.

(** ** C4: exit closes the first open record of the day *)

(** C4: for the matched member [m], if no record of [m] dated today has an
    empty ExitTime, [mark_exit] answers "No open entry found for today" and
    the store is unchanged.  Otherwise the table splits as
    [pre ++ a :: post] with [a] the first such open record; [mark_exit]
    replaces [a] by a copy with ExitTime = now and Status = "Exited" (its
    other fields kept) and leaves [pre], [post] and the other files as they
    were.  If [a] was the only open record of [m] today, a second
    [mark_exit] the same day fails with "No open entry found for today". *)
Theorem C4_exit_updates_first_open :
  forall (verify : string -> bool * Q) (today now_time : string) (st : store) m,
    best_match verify (load_members st) = Some m ->
    ((forall a, In a (load_attendance st) -> open_for (m_ID m) today a = false) ->
       mark_exit verify today now_time st = (ExitNoOpen, st))
    /\ ((exists a, In a (load_attendance st) /\ open_for (m_ID m) today a = true) ->
       exists pre a post,
         load_attendance st = (pre ++ a :: post)%list
         /\ (forall x, In x pre -> open_for (m_ID m) today x = false)
         /\ open_for (m_ID m) today a = true
         /\ close_rec now_time a
            = mkArec (a_ID a) (a_Name a) (a_Date a) (a_EntryTime a) (Some now_time) "Exited"
         /\ mark_exit verify today now_time st
            = (ExitMarked m, save_attendance st ((pre ++ close_rec now_time a :: post)%list))
         /\ (now_time <> "" -> (forall x, In x post -> open_for (m_ID m) today x = false) ->
             forall later_time,
               let st' := save_attendance st ((pre ++ close_rec now_time a :: post)%list) in
               mark_exit verify today later_time st' = (ExitNoOpen, st'))).
Proof.
  intros verify today now_time st m Hm.
  assert (Hne := best_match_some_nonempty _ _ _ Hm).
  assert (Hexit : forall t st0, best_match verify (load_members st0) = Some m ->
            (forall a, In a (load_attendance st0) -> open_for (m_ID m) today a = false) ->
            mark_exit verify today t st0 = (ExitNoOpen, st0)).
  { intros t st0 Hm0 Hall. assert (Hne0 := best_match_some_nonempty _ _ _ Hm0).
    unfold mark_exit. destruct (load_members st0) as [|m0 ms]; [contradiction|].
    rewrite Hm0, update_first_none by exact Hall. reflexivity. }
  split; [apply Hexit, Hm|].
  intro Hex.
  destruct (update_first_some (open_for (m_ID m) today) (close_rec now_time) _ Hex)
    as (pre & a & post & Hl & Hpre & Ha & Hu).
  exists pre, a, post. split; [exact Hl|]. split; [exact Hpre|]. split; [exact Ha|].
  split; [reflexivity|]. split.
  - unfold mark_exit. destruct (load_members st) as [|m0 ms]; [contradiction|].
    rewrite Hm, Hu. reflexivity.
  - intros Hnow Hpost later_time st'. apply Hexit.
    + subst st'. rewrite load_members_save_attendance. exact Hm.
    + subst st'. rewrite load_attendance_save_attendance. intros x Hx.
      apply in_app_or in Hx as [Hx | [<- | Hx]]; auto.
      unfold open_for, close_rec, exit_empty. simpl.
      destruct (String.eqb_spec now_time ""); [contradiction|].
      apply andb_false_r.
Qed.

Lemma C4_witness :
  best_match verify_ann (load_members ann_present) = Some ann
  /\ mark_exit verify_ann "2026-10-18" "18:00:00" ann_present
     = (ExitMarked ann, save_attendance ann_present [bob_out; close_rec "18:00:00" ann_in])
  /\ mark_exit verify_ann "2026-10-18" "18:05:00"
       (save_attendance ann_present [bob_out; close_rec "18:00:00" ann_in])
     = (ExitNoOpen, save_attendance ann_present [bob_out; close_rec "18:00:00" ann_in]).
Proof.
  assert (H1 : best_match verify_ann (load_members ann_present) = Some ann) by (vm_compute; reflexivity).
  destruct (C4_exit_updates_first_open verify_ann "2026-10-18" "18:00:00" ann_present ann H1)
    as [_ H].
  destruct H as (pre & a & post & Hl & Hpre & Ha & _ & Hx & Hsecond).
  - exists ann_in. split; [simpl; auto | reflexivity].
  - assert (Hpa : pre = [bob_out] /\ a = ann_in /\ post = []).
    { destruct pre as [|p [|p' pre]]; simpl in Hl; injection Hl; intros; subst.
      - discriminate Ha.
      - auto.
      - destruct pre; discriminate. }
    destruct Hpa as (-> & -> & ->).
    split; [exact H1|]. split; [exact Hx|].
    apply Hsecond; [discriminate | intros ? []].
Defined.

(** ** Registration lemmas *)

(** The ids reported by a sequence of registrations. *)
Fixpoint registered_ids (ins : list reg_input) (st : store) : list reg_outcome :=
  match ins with
  | [] => []
  | i :: r => fst (register_input i st) :: registered_ids r (snd (register_input i st))
  end.

(** The new id of a registration on [st]. *)
Definition next_id (st : store) : Z := (Z.of_nat (List.length (load_members st)) + 1)%Z.

Lemma register_new_id (st : store) :
  match load_members st with
  | [] => 1%Z
  | _ :: _ => (Z.of_nat (List.length (load_members st)) + 1)%Z
  end = next_id st.
Proof. unfold next_id. destruct (load_members st); reflexivity. Qed.

(** A registration that passes the field check and whose photo can be
    saved. *)
Lemma register_input_valid (i : reg_input) (st : store) :
  reg_valid i = true -> img_save_ok (photo_file (next_id st) (r_name i)) = true ->
  exists pic, r_photo i = Some pic
    /\ register_input i st
       = (Registered (next_id st),
          save_members
            (set_images st (add_image (photo_file (next_id st) (r_name i)) pic (member_images st)))
            (load_members st ++ [mkMember (next_id st) (r_name i) (r_email i) (r_mobile i)
                                   (r_membership i) (r_fee i)
                                   ("member_images/" ++ photo_file (next_id st) (r_name i))])%list).
Proof.
  intros Hv Hs. unfold register_input, register. unfold reg_valid in Hv.
  destruct (r_photo i) as [pic|]; [|rewrite andb_false_r in Hv; discriminate].
  rewrite andb_true_r in Hv. rewrite Hv. cbv iota beta. rewrite register_new_id, Hs.
  exists pic. split; reflexivity.
Qed.

(** A registration that passes the field check but whose photo cannot be
    saved raises before any write. *)
Lemma register_input_raised (i : reg_input) (st : store) :
  reg_valid i = true -> img_save_ok (photo_file (next_id st) (r_name i)) = false ->
  register_input i st = (RegRaised, st).
Proof.
  intros Hv Hs. unfold register_input, register. unfold reg_valid in Hv.
  destruct (r_photo i) as [pic|]; [|rewrite andb_false_r in Hv; discriminate].
  rewrite andb_true_r in Hv. rewrite Hv. cbv iota beta. rewrite register_new_id, Hs.
  reflexivity.
Qed.

Lemma register_input_invalid (i : reg_input) (st : store) :
  reg_valid i = false -> register_input i st = (RegMissingFields, st).
Proof.
  intro Hv. unfold register_input, register. unfold reg_valid in Hv.
  destruct (r_photo i) as [pic|]; [|reflexivity].
  rewrite andb_true_r in Hv. rewrite Hv. reflexivity.
Qed.

(** Every registration attempt either adds one member with id
    [next_id st] at the end of the table, or writes nothing and reports no
    id. *)
Lemma register_input_step (i : reg_input) (st : store) :
  (exists x, fst (register_input i st) = Registered (m_ID x) /\ m_ID x = next_id st
     /\ load_members (snd (register_input i st)) = (load_members st ++ [x])%list)
  \/ (register_input i st = (fst (register_input i st), st)
      /\ forall nid, fst (register_input i st) <> Registered nid).
Proof.
  destruct (reg_valid i) eqn:Hv.
  - destruct (img_save_ok (photo_file (next_id st) (r_name i))) eqn:Hs.
    + left. destruct (register_input_valid i st Hv Hs) as (pic & _ & Hreg).
      rewrite Hreg. eexists (mkMember _ _ _ _ _ _ _). split; [reflexivity|]. split; reflexivity.
    + right. rewrite (register_input_raised i st Hv Hs). split; [reflexivity | discriminate].
  - right. rewrite (register_input_invalid i st Hv). split; [reflexivity | discriminate].
Qed.


Lemma map_ids_seq_snoc (ms : list member) (k : nat) (x : member) :
  map m_ID ms = map Z.of_nat (seq 1 k) -> m_ID x = (Z.of_nat k + 1)%Z ->
  map m_ID (ms ++ [x])%list = map Z.of_nat (seq 1 (S k)).
Proof.
  intros Hms Hx. rewrite map_app, Hms, seq_S, map_app. simpl.
  rewrite Hx. do 2 f_equal. lia.
Qed.


(** The ids reported by the successful registrations of a sequence of
    outcomes. *)
Fixpoint reg_ids (os : list reg_outcome) : list Z :=
  match os with
  | [] => []
  | Registered n :: r => n :: reg_ids r
  | _ :: r => reg_ids r
  end.

(** ** C5: registration ids *)

(** C5: starting from a member table whose ids are 1..k (k = 0 for an
    empty table), any sequence of registration attempts with no deletion
    in between (attempts refused for a missing field or raising on the
    photo add nobody) gives the new members the ids k+1, k+2, ... in turn,
    each the count of the existing members plus one, and the live table
    then holds exactly the ids 1..k+n, pairwise distinct. *)
Theorem C5_registration_ids :
  forall (ins : list reg_input) (st : store) (k : nat),
    map m_ID (load_members st) = map Z.of_nat (seq 1 k) ->
    let n := List.length (reg_ids (registered_ids ins st)) in
    reg_ids (registered_ids ins st) = map Z.of_nat (seq (S k) n)
    /\ map m_ID (load_members (register_all ins st)) = map Z.of_nat (seq 1 (k + n))
    /\ NoDup (map m_ID (load_members (register_all ins st))).
Proof.
  assert (Hmain : forall ins st k,
    map m_ID (load_members st) = map Z.of_nat (seq 1 k) ->
    reg_ids (registered_ids ins st)
      = map Z.of_nat (seq (S k) (List.length (reg_ids (registered_ids ins st))))
    /\ map m_ID (load_members (register_all ins st))
      = map Z.of_nat (seq 1 (k + List.length (reg_ids (registered_ids ins st))))).
  { induction ins as [|i ins IH]; intros st k Hids.
    - simpl. rewrite Nat.add_0_r. auto.
    - assert (Hlen : List.length (load_members st) = k).
      { rewrite <- (length_seq k 1), <- (length_map Z.of_nat), <- Hids, length_map. reflexivity. }
      simpl. destruct (register_input_step i st) as [(x & Ho & Hx & Hl) | [Hst Hno]].
      + rewrite Ho. simpl.
        assert (Hids' : map m_ID (load_members (snd (register_input i st)))
                        = map Z.of_nat (seq 1 (S k))).
        { rewrite Hl. apply map_ids_seq_snoc; [exact Hids|]. rewrite Hx. unfold next_id.
          rewrite Hlen. reflexivity. }
        destruct (IH _ (S k) Hids') as [H1 H2].
        rewrite Hx. unfold next_id. rewrite Hlen. split.
        * rewrite H1 at 1. simpl. f_equal. lia.
        * rewrite H2, Nat.add_succ_r. reflexivity.
      + rewrite Hst. simpl. destruct (fst (register_input i st)) as [| |nid] eqn:Ho;
          [ | | exfalso; exact (Hno nid eq_refl)]; exact (IH st k Hids). }
  intros ins st k Hids n. destruct (Hmain ins st k Hids) as [H1 H2].
  split; [exact H1|]. split; [exact H2|].
  rewrite H2. apply NoDup_map_NoDup_ForallPairs; [intros x y _ _; apply Nat2Z.inj | apply seq_NoDup].
Qed.

(** A registration whose name makes the photo path point into a missing
    sub-directory of [member_images/]. *)
Definition acdc_reg : reg_input :=
  mkRegInput "AC/DC" "acdc@example.com" "9000000003" "Yearly" 500 (Some "capture").

Lemma C5_witness :
  map m_ID (load_members fresh_store) = map Z.of_nat (seq 1 0)
  /\ reg_ids (registered_ids [ann_reg; acdc_reg; ann_reg] fresh_store) = map Z.of_nat (seq 1 2)
  /\ map m_ID (load_members (register_all [ann_reg; acdc_reg; ann_reg] fresh_store))
     = map Z.of_nat (seq 1 (0 + 2))
  /\ NoDup (map m_ID (load_members (register_all [ann_reg; acdc_reg; ann_reg] fresh_store))).
Proof.
  assert (H1 : map m_ID (load_members fresh_store) = map Z.of_nat (seq 1 0)) by reflexivity.
  split; [exact H1|].
  exact (C5_registration_ids [ann_reg; acdc_reg; ann_reg] fresh_store 0 H1).
Defined.

(** ** C10: the fee is not validated, but some names do not register *)

(** C10 (code bug): the field check does not look at the fee, and with
    a plain name a registration with fee 0 is saved with fee 0; but with
    all five fields present and the name "AC/DC", the photo path
    [member_images/3_AC/DC.jpg] lies in a directory that does not exist,
    [img.save] raises and nothing is registered. *)
Theorem C10_slash_name_not_registered :
  register "AC/DC" "acdc@example.com" "9000000003" "Monthly" 0 (Some "capture") two_members
  = (RegRaised, two_members)
  /\ register "Ann Lee" "ann@example.com" "9000000001" "Monthly" 0 (Some "capture") two_members
     = (Registered 3,
        mkStore (Table [ann; bob; mkMember 3 "Ann Lee" "ann@example.com" "9000000001" "Monthly" 0
                                 "member_images/3_Ann_Lee.jpg"])
                NoColumns NoColumns
                [("1_Ann_Lee.jpg", "ann photo"); ("2_Bob.jpg", "bob photo");
                 ("3_Ann_Lee.jpg", "capture")]).
Proof. split; vm_compute; reflexivity. Qed.


(** ** C6: deleting a member *)

(** C6 (code bug): on a fresh database (the three CSV files written by the
    start-up code), register Ann (id 1) and delete id 1: Ann leaves the
    live table, but reading [deleted_members.csv], which has no header,
    raises, so nothing is appended to the archive. *)
Theorem C6_delete_on_fresh_archive_raises :
  let st := snd (register_input ann_reg fresh_store) in
  (exists x, In x (load_members st) /\ m_ID x = 1%Z)
  /\ fst (delete_member 1 st) = DelRaised
  /\ load_members (snd (delete_member 1 st)) = []
  /\ deleted_csv (snd (delete_member 1 st)) = NoColumns.
Proof.
  vm_compute. split; [eexists; split; [left; reflexivity | reflexivity]|].
  repeat split.
Qed.

(** ** C8: deletion keeps the attendance table *)

(** C8: [delete_member] never touches [attendance.csv], whatever the
    outcome. *)
Theorem C8_delete_keeps_attendance :
  forall (selected_id : Z) (st : store),
    attendance_csv (snd (delete_member selected_id st)) = attendance_csv st.
Proof.
  intros selected_id st. unfold delete_member.
  destruct (load_members st); [reflexivity|].
  destruct (filter _ _); [reflexivity|].
  destruct (read_csv (deleted_csv st)); reflexivity.
Qed.

(** ** C7: Reset DB *)

(** C7 counterexample: after a reset the tables are not empty tables with
    their headers: each file is header-less, and [pd.read_csv] of
    [deleted_members.csv] raises. *)
Lemma C7_counterexample :
  members_csv (reset two_members) <> Table []
  /\ attendance_csv (reset two_members) <> Table []
  /\ deleted_csv (reset two_members) <> Table []
  /\ read_csv (deleted_csv (reset two_members)) = None.
Proof. vm_compute. repeat split; discriminate. Qed.

(** C7 (amended): [reset] overwrites the three CSV files with a header-less
    empty file and removes every file of [member_images/]; afterwards
    [load_members] and [load_attendance] return empty tables (their
    fallback supplies the canonical columns). *)
Theorem C7_reset_effect :
  forall st : store,
    members_csv (reset st) = NoColumns
    /\ attendance_csv (reset st) = NoColumns
    /\ deleted_csv (reset st) = NoColumns
    /\ member_images (reset st) = []
    /\ load_members (reset st) = []
    /\ load_attendance (reset st) = [].
Proof. intro st. repeat split. Qed.

(** * Further properties of the code *)

Lemma best_match_in (verify : string -> bool * Q) (ms : list member) m :
  best_match verify ms = Some m -> In m ms.
Proof.
  intro H. destruct (scan_some _ _ H) as (i & d & Hn & _).
  apply nth_error_In in Hn. apply (in_candidates verify ms m d) in Hn. tauto.
Qed.

Lemma filter_nil_all {A} (p : A -> bool) (l : list A) :
  filter p l = [] -> forall a, In a l -> p a = false.
Proof.
  intros H a Ha. destruct (p a) eqn:E; [|reflexivity].
  assert (Hin : In a (filter p l)) by (apply filter_In; auto).
  rewrite H in Hin. destruct Hin.
Qed.

(** ** Update Member *)

(** X1: on a non-empty member table, [update_member] writes to
    [members.csv] the table it read with every row carrying the selected
    ID given the five new values as entered (no field is validated) and
    every other row as it was, in the same order; each row keeps its ID
    and ImagePath, and no other file is touched: the Name copied into
    attendance records is not refreshed.  (How [pd.read_csv] re-types the
    written Mobile or Fee values on the next load is not part of this
    property.) *)
Theorem X1_update_member_effect :
  forall (selected_id : Z) (name email mobile membership : string) (fee : Z) (st : store),
    load_members st <> [] ->
    let st' := snd (update_member selected_id name email mobile membership fee st) in
    fst (update_member selected_id name email mobile membership fee st) = Updated
    /\ (exists rows, members_csv st' = Table rows
         /\ List.length rows = List.length (load_members st)
         /\ map m_ID rows = map m_ID (load_members st)
         /\ map m_ImagePath rows = map m_ImagePath (load_members st)
         /\ forall n r, nth_error (load_members st) n = Some r ->
              nth_error rows n
              = Some (if Z.eqb (m_ID r) selected_id
                      then mkMember (m_ID r) name email mobile membership fee (m_ImagePath r)
                      else r))
    /\ attendance_csv st' = attendance_csv st
    /\ deleted_csv st' = deleted_csv st
    /\ member_images st' = member_images st.
Proof.
  intros selected_id name email mobile membership fee st Hne st'. subst st'.
  unfold update_member. destruct (load_members st) as [|m0 ms] eqn:E; [contradiction|].
  cbn [fst snd]. split; [reflexivity|].
  split; [|repeat split].
  exists (map (update_row selected_id name email mobile membership fee) (m0 :: ms)).
  split; [reflexivity|]. split; [apply length_map|]. split; [|split].
  - rewrite map_map. apply map_ext. intro r. unfold update_row.
    destruct (Z.eqb (m_ID r) selected_id); reflexivity.
  - rewrite map_map. apply map_ext. intro r. unfold update_row.
    destruct (Z.eqb (m_ID r) selected_id); reflexivity.
  - intros n r Hn. rewrite nth_error_map, Hn. reflexivity.
Qed.

Lemma X1_witness :
  load_members two_members <> []
  /\ (let st' := snd (update_member 2 "Bob Ray" "bob.ray@example.com" "9000000022" "Monthly" 1200
                        two_members) in
      fst (update_member 2 "Bob Ray" "bob.ray@example.com" "9000000022" "Monthly" 1200 two_members)
      = Updated
      /\ (exists rows, members_csv st' = Table rows
           /\ List.length rows = List.length (load_members two_members)
           /\ map m_ID rows = map m_ID (load_members two_members)
           /\ map m_ImagePath rows = map m_ImagePath (load_members two_members)
           /\ forall n r, nth_error (load_members two_members) n = Some r ->
                nth_error rows n
                = Some (if Z.eqb (m_ID r) 2
                        then mkMember (m_ID r) "Bob Ray" "bob.ray@example.com" "9000000022"
                                      "Monthly" 1200 (m_ImagePath r)
                        else r))
      /\ attendance_csv st' = attendance_csv two_members
      /\ deleted_csv st' = deleted_csv two_members
      /\ member_images st' = member_images two_members).
Proof.
  assert (Hne : load_members two_members <> []) by discriminate.
  split; [exact Hne|].
  exact (X1_update_member_effect 2 "Bob Ray" "bob.ray@example.com" "9000000022" "Monthly" 1200
           two_members Hne).
Defined.

(** ** Attendance – Entry *)

(** X2: when [mark_entry] marks member [m], [m] is a row of the member
    table and the best match of the scan, no record of [m] dated today
    existed, and the attendance table is the old one with exactly one row
    appended: [m]'s ID and Name, today's date, the entry time, an empty
    ExitTime and Status "Present". *)
Theorem X2_entry_marked_effect :
  forall (verify : string -> bool * Q) (today now_time : string) (st st' : store) m,
    mark_entry verify today now_time st = (EntryMarked m, st') ->
    In m (load_members st)
    /\ best_match verify (load_members st) = Some m
    /\ (forall a, In a (load_attendance st) -> same_day (m_ID m) today a = false)
    /\ load_attendance st'
       = (load_attendance st ++ [mkArec (m_ID m) (m_Name m) today now_time None "Present"])%list.
Proof.
  intros verify today now_time st st' m H. unfold mark_entry in H.
  destruct (load_members st) as [|m0 ms] eqn:E; [discriminate|].
  destruct (best_match verify (m0 :: ms)) as [row|] eqn:Hb; [|discriminate].
  destruct (filter (same_day (m_ID row) today) (load_attendance st)) as [|a l] eqn:Hf;
    [|discriminate].
  injection H as <- <-.
  split; [eapply best_match_in; eauto|]. split; [reflexivity|].
  split; [apply filter_nil_all, Hf | reflexivity].
Qed.

Lemma X2_witness :
  mark_entry verify_ann "2026-10-18" "09:00:00" two_members
  = (EntryMarked ann, save_attendance two_members [ann_in])
  /\ In ann (load_members two_members)
  /\ best_match verify_ann (load_members two_members) = Some ann
  /\ (forall a, In a (load_attendance two_members) -> same_day (m_ID ann) "2026-10-18" a = false)
  /\ load_attendance (save_attendance two_members [ann_in])
     = (load_attendance two_members
        ++ [mkArec (m_ID ann) (m_Name ann) "2026-10-18" "09:00:00" None "Present"])%list.
Proof.
  assert (H : mark_entry verify_ann "2026-10-18" "09:00:00" two_members
              = (EntryMarked ann, save_attendance two_members [ann_in]))
    by (vm_compute; reflexivity).
  split; [exact H|].
  exact (X2_entry_marked_effect verify_ann "2026-10-18" "09:00:00" two_members _ ann H).
Defined.

(** X3: a press of the entry page writes [temp_entry.jpg] with the
    captured photo and otherwise at most [attendance.csv]: the member
    table, the archive, [member_images/] and [temp_exit.jpg] are unchanged
    whatever the outcome; symmetrically for the exit page and
    [temp_exit.jpg]. *)
Theorem X3_attendance_ops_frame :
  forall (verify : string -> bool * Q) (today now_time photo : string) (w : world),
    let w1 := snd (entry_page verify today now_time photo w) in
    let w2 := snd (exit_page verify today now_time photo w) in
    temp_entry w1 = Some photo /\ temp_exit w1 = temp_exit w
    /\ members_csv (disk w1) = members_csv (disk w)
    /\ deleted_csv (disk w1) = deleted_csv (disk w)
    /\ member_images (disk w1) = member_images (disk w)
    /\ temp_exit w2 = Some photo /\ temp_entry w2 = temp_entry w
    /\ members_csv (disk w2) = members_csv (disk w)
    /\ deleted_csv (disk w2) = deleted_csv (disk w)
    /\ member_images (disk w2) = member_images (disk w).
Proof.
  intros verify today now_time photo w w1 w2. subst w1 w2.
  unfold entry_page, exit_page, mark_entry, mark_exit.
  destruct (load_members (disk w)); [repeat split|].
  destruct (best_match verify _); [|repeat split].
  destruct (filter _ _); destruct (update_first _ _ _); repeat split.
Qed.

(** ** Register Member *)

(** X4: a registration missing the name, email, mobile, membership or
    photo is refused with no write at all; a complete one whose photo file
    name [<id>_<name>.jpg] cannot be saved (for instance a name with a
    '/') raises with no write at all; a complete one whose photo can be
    saved is registered with id [count + 1]. *)
Theorem X4_register_validation :
  forall (i : reg_input) (st : store),
    (reg_valid i = false -> register_input i st = (RegMissingFields, st))
    /\ (reg_valid i = true -> img_save_ok (photo_file (next_id st) (r_name i)) = false ->
        register_input i st = (RegRaised, st))
    /\ (reg_valid i = true -> img_save_ok (photo_file (next_id st) (r_name i)) = true ->
        fst (register_input i st) = Registered (next_id st)).
Proof.
  intros i st. split; [apply register_input_invalid|]. split; [apply register_input_raised|].
  intros Hv Hs. destruct (register_input_valid i st Hv Hs) as (pic & _ & ->). reflexivity.
Qed.

(** A registration with an empty name. *)
Definition noname_reg : reg_input :=
  mkRegInput "" "x@example.com" "9000000004" "Monthly" 1000 (Some "capture").

Lemma X4_witness :
  register_input noname_reg two_members = (RegMissingFields, two_members)
  /\ register_input acdc_reg two_members = (RegRaised, two_members)
  /\ fst (register_input ann_reg two_members) = Registered (next_id two_members)
  /\ next_id two_members = 3%Z.
Proof.
  destruct (X4_register_validation noname_reg two_members) as [A _].
  destruct (X4_register_validation acdc_reg two_members) as [_ [B _]].
  destruct (X4_register_validation ann_reg two_members) as [_ [_ C]].
  split; [apply A; reflexivity|].
  split; [apply B; vm_compute; reflexivity|].
  split; [apply C; vm_compute; reflexivity | reflexivity].
Defined.

Lemma add_image_spec (f pic : string) (l : list (string * string)) (g c : string) :
  In (g, c) (add_image f pic l) <-> (g = f /\ c = pic) \/ (g <> f /\ In (g, c) l).
Proof.
  unfold add_image. destruct (existsb (fun e => String.eqb (fst e) f) l) eqn:Ex.
  - rewrite in_map_iff. split.
    + intros ([e1 e2] & He & Hin). simpl in He.
      destruct (String.eqb_spec e1 f) as [->|Hne].
      * injection He as <- <-. left. auto.
      * injection He as -> ->. right. auto.
    + intros [[-> ->] | [Hne Hin]].
      * apply existsb_exists in Ex as ([e1 e2] & Hin & Heq). simpl in Heq.
        exists (e1, e2). simpl. rewrite Heq. apply String.eqb_eq in Heq. subst. auto.
      * exists (g, c). simpl. destruct (String.eqb_spec g f); [contradiction|]. auto.
  - rewrite in_app_iff. simpl. split.
    + intros [Hin | [He | []]].
      * right. split; [|exact Hin]. intros ->.
        assert (Ht : existsb (fun e => String.eqb (fst e) f) l = true).
        { apply existsb_exists. exists (f, c). simpl. rewrite String.eqb_refl. auto. }
        congruence.
      * injection He as <- <-. left. auto.
    + intros [[-> ->] | [_ Hin]]; [right; left; reflexivity | left; exact Hin].
Qed.

(** X5: a registration that passes the check and whose photo can be
    saved leaves [member_images/] holding the captured photo under
    [<id>_<name with spaces replaced by _>.jpg] and every other file with
    its old content, and nothing else; a file already there under that
    name (a photo of a member whose id is reused) is overwritten.  The
    table gains one row at its end, whose ImagePath points at that file. *)
Theorem X5_register_photo :
  forall (i : reg_input) (st : store) (pic : string),
    reg_valid i = true -> r_photo i = Some pic ->
    img_save_ok (photo_file (next_id st) (r_name i)) = true ->
    let img := photo_file (next_id st) (r_name i) in
    let st' := snd (register_input i st) in
    (forall f c, In (f, c) (member_images st')
                 <-> (f = img /\ c = pic) \/ (f <> img /\ In (f, c) (member_images st)))
    /\ exists r, load_members st' = (load_members st ++ [r])%list
         /\ m_ID r = next_id st /\ m_ImagePath r = ("member_images/" ++ img)%string.
Proof.
  intros i st pic Hv Hp Hs img st'. subst img st'.
  destruct (register_input_valid i st Hv Hs) as (pic' & Hp' & ->).
  rewrite Hp in Hp'. injection Hp' as <-. simpl. split.
  - intros f c. apply add_image_spec.
  - eexists. split; [reflexivity|]. split; reflexivity.
Qed.

(** Bob alone, after Ann (id 1) was deleted: the next id is 2, Bob's. *)
Definition bob_only : store := snd (delete_member 1 two_members).

(** Another member called Bob. *)
Definition bob2_reg : reg_input :=
  mkRegInput "Bob" "bob2@example.com" "9000000005" "Monthly" 1000 (Some "new bob").

Lemma X5_witness :
  reg_valid bob2_reg = true /\ r_photo bob2_reg = Some "new bob"
  /\ img_save_ok (photo_file (next_id bob_only) (r_name bob2_reg)) = true
  /\ photo_file (next_id bob_only) (r_name bob2_reg) = "2_Bob.jpg"
  /\ In bob (load_members bob_only)
  /\ ((forall f c, In (f, c) (member_images (snd (register_input bob2_reg bob_only)))
                   <-> (f = "2_Bob.jpg" /\ c = "new bob")
                       \/ (f <> "2_Bob.jpg" /\ In (f, c) (member_images bob_only)))
      /\ exists r, load_members (snd (register_input bob2_reg bob_only))
                   = (load_members bob_only ++ [r])%list
           /\ m_ID r = next_id bob_only /\ m_ImagePath r = "member_images/2_Bob.jpg").
Proof.
  assert (H1 : reg_valid bob2_reg = true) by reflexivity.
  assert (H2 : r_photo bob2_reg = Some "new bob") by reflexivity.
  assert (H3 : img_save_ok (photo_file (next_id bob_only) (r_name bob2_reg)) = true)
    by (vm_compute; reflexivity).
  assert (H4 : photo_file (next_id bob_only) (r_name bob2_reg) = "2_Bob.jpg")
    by (vm_compute; reflexivity).
  assert (H5 : In bob (load_members bob_only)) by (vm_compute; left; reflexivity).
  split; [exact H1|]. split; [exact H2|]. split; [exact H3|]. split; [exact H4|].
  split; [exact H5|].
  assert (H := X5_register_photo bob2_reg bob_only "new bob" H1 H2 H3).
  rewrite H4 in H. exact H.
Defined.

(** ** Helper lemmas for the composed scenarios *)

Lemma update_first_filter_length (p q : arec -> bool) (f : arec -> arec) (l l' : list arec) :
  (forall x, q (f x) = q x) -> update_first p f l = Some l' ->
  List.length (filter q l') = List.length (filter q l).
Proof.
  intro Hq. revert l'. induction l as [|x l IH]; intros l' H; simpl in H; [discriminate|].
  destruct (p x).
  - injection H as <-. simpl. rewrite Hq. destruct (q x); reflexivity.
  - destruct (update_first p f l) as [l''|] eqn:E; [|discriminate].
    injection H as <-. simpl. destruct (q x); simpl; rewrite (IH l'' eq_refl); reflexivity.
Qed.

Lemma update_first_app_last (p : arec -> bool) (f : arec -> arec) (l : list arec) (x : arec) :
  (forall a, In a l -> p a = false) -> p x = true ->
  update_first p f (l ++ [x])%list = Some (l ++ [f x])%list.
Proof.
  intros Hl Hx. induction l as [|a l IH]; simpl.
  - rewrite Hx. reflexivity.
  - rewrite (Hl a (or_introl eq_refl)), IH; [reflexivity|].
    intros b Hb. apply Hl. right. exact Hb.
Qed.

Lemma filter_all_true {A} (p : A -> bool) (l : list A) :
  (forall x, In x l -> p x = true) -> filter p l = l.
Proof.
  induction l as [|x l IH]; intro H; simpl; [reflexivity|].
  rewrite (H x (or_introl eq_refl)), IH; [reflexivity|].
  intros y Hy. apply H. right. exact Hy.
Qed.

Lemma same_day_refl (mid : Z) (today : string) (a : arec) :
  a_ID a = mid -> a_Date a = today -> same_day mid today a = true.
Proof.
  intros <- <-. unfold same_day. rewrite Z.eqb_refl, String.eqb_refl. reflexivity.
Qed.

(** The live table after [delete_member], whatever its outcome. *)
Lemma delete_member_members (selected_id : Z) (st : store) :
  load_members (snd (delete_member selected_id st))
  = filter (fun r => negb (Z.eqb (m_ID r) selected_id)) (load_members st).
Proof.
  unfold delete_member. destruct (load_members st) as [|m ms] eqn:E; [exact E|].
  destruct (filter _ _); [reflexivity|].
  destruct (read_csv (deleted_csv st)); reflexivity.
Qed.

(** ** The one-record-per-day invariant *)

(** At most one attendance record per member and date. *)
Definition one_per_day (att : list arec) : Prop :=
  forall mid d, (List.length (filter (same_day mid d) att) <= 1)%nat.

(** X6: [mark_entry] and [mark_exit] keep the attendance table free of two
    records for the same member and date. *)
Theorem X6_one_per_day_preserved :
  forall (verify : string -> bool * Q) (today now_time : string) (st : store),
    one_per_day (load_attendance st) ->
    one_per_day (load_attendance (snd (mark_entry verify today now_time st)))
    /\ one_per_day (load_attendance (snd (mark_exit verify today now_time st))).
Proof.
  intros verify today now_time st Hinv. split.
  - unfold mark_entry. destruct (load_members st); [exact Hinv|].
    destruct (best_match verify _) as [row|]; [|exact Hinv].
    destruct (filter (same_day (m_ID row) today) (load_attendance st)) as [|a0 l0] eqn:Hf;
      [|exact Hinv].
    intros mid d. cbn [fst snd]. rewrite load_attendance_save_attendance, filter_app, length_app. simpl.
    destruct (same_day mid d (mkArec (m_ID row) (m_Name row) today now_time None "Present")) eqn:Hs.
    + unfold same_day in Hs. simpl in Hs. apply andb_true_iff in Hs as [H1 H2].
      apply Z.eqb_eq in H1. apply String.eqb_eq in H2. subst mid d.
      rewrite Hf. simpl. lia.
    + specialize (Hinv mid d). simpl. lia.
  - unfold mark_exit. destruct (load_members st); [exact Hinv|].
    destruct (best_match verify _) as [row|]; [|exact Hinv].
    destruct (update_first _ _ _) as [att'|] eqn:Hu; [|exact Hinv].
    intros mid d. cbn [fst snd]. rewrite load_attendance_save_attendance.
    rewrite (update_first_filter_length (open_for (m_ID row) today) (same_day mid d)
               (close_rec now_time) _ _ (fun x => eq_refl) Hu).
    apply Hinv.
Qed.

(** Ann and Bob, with Bob's finished visit of the day recorded. *)
Definition bob_visited : store := save_attendance two_members [bob_out].

Lemma X6_witness :
  (one_per_day (load_attendance bob_visited)
   /\ one_per_day (load_attendance (snd (mark_entry verify_ann "2026-10-18" "09:00:00" bob_visited)))
   /\ one_per_day (load_attendance (snd (mark_exit verify_ann "2026-10-18" "09:00:00" bob_visited))))
  /\ load_attendance (snd (mark_entry verify_ann "2026-10-18" "09:00:00" bob_visited))
     = [bob_out; ann_in]
  /\ (one_per_day (load_attendance ann_present)
      /\ one_per_day (load_attendance (snd (mark_entry verify_ann "2026-10-18" "18:00:00" ann_present)))
      /\ one_per_day (load_attendance (snd (mark_exit verify_ann "2026-10-18" "18:00:00" ann_present))))
  /\ load_attendance (snd (mark_exit verify_ann "2026-10-18" "18:00:00" ann_present))
     = [bob_out; close_rec "18:00:00" ann_in].
Proof.
  assert (H1 : one_per_day (load_attendance bob_visited)).
  { intros mid d. simpl. destruct (same_day mid d bob_out); simpl; lia. }
  assert (H2 : one_per_day (load_attendance ann_present)).
  { intros mid d. change (load_attendance ann_present) with [bob_out; ann_in]. cbn [filter].
    destruct (same_day mid d bob_out) eqn:E1, (same_day mid d ann_in) eqn:E2; cbn; try lia.
    unfold same_day, bob_out, ann_in in E1, E2. cbn [a_ID a_Date] in E1, E2.
    apply andb_true_iff in E1 as [E1 _]. apply andb_true_iff in E2 as [E2 _].
    apply Z.eqb_eq in E1. apply Z.eqb_eq in E2. lia. }
  split; [split; [exact H1|] |].
  - exact (X6_one_per_day_preserved verify_ann "2026-10-18" "09:00:00" bob_visited H1).
  - split; [vm_compute; reflexivity|]. split; [split; [exact H2|] | vm_compute; reflexivity].
    exact (X6_one_per_day_preserved verify_ann "2026-10-18" "18:00:00" ann_present H2).
Defined.

(** ** Entry, exit, entry on one day *)

(** X7: after [mark_entry] marks member [m], a [mark_exit] the same day
    with the same verifier outputs closes exactly the record just
    appended; a further [mark_entry] that day is then refused with "Entry
    already marked today": a member enters at most once per day. *)
Theorem X7_entry_exit_reentry :
  forall (verify : string -> bool * Q) (today t1 t2 t3 : string) (st st1 : store) m,
    mark_entry verify today t1 st = (EntryMarked m, st1) ->
    let new_entry := mkArec (m_ID m) (m_Name m) today t1 None "Present" in
    let st2 := save_attendance st1 (load_attendance st ++ [close_rec t2 new_entry])%list in
    mark_exit verify today t2 st1 = (ExitMarked m, st2)
    /\ mark_entry verify today t3 st2 = (EntryAlreadyMarked, st2).
Proof.
  intros verify today t1 t2 t3 st st1 m H new_entry st2.
  unfold mark_entry in H.
  destruct (load_members st) as [|m0 ms] eqn:E; [discriminate|].
  destruct (best_match verify (m0 :: ms)) as [row|] eqn:Hb; [|discriminate].
  destruct (filter (same_day (m_ID row) today) (load_attendance st)) as [|a l] eqn:Hf;
    [|discriminate].
  injection H as <- <-.
  assert (Hnone := filter_nil_all _ _ Hf).
  split.
  - unfold mark_exit. rewrite load_members_save_attendance, E, Hb,
      load_attendance_save_attendance.
    rewrite update_first_app_last; [reflexivity| |].
    + intros b Hb'. unfold open_for. rewrite (Hnone b Hb'). reflexivity.
    + unfold open_for. rewrite same_day_refl by reflexivity. reflexivity.
  - unfold mark_entry. subst st2.
    rewrite load_members_save_attendance, load_members_save_attendance, E, Hb,
      load_attendance_save_attendance.
    destruct (filter (same_day (m_ID row) today) (load_attendance st ++ [close_rec t2 new_entry])%list) as [|b l] eqn:Hf2; [|reflexivity].
    exfalso. assert (Hc := filter_nil_all _ _ Hf2 (close_rec t2 new_entry)).
    rewrite same_day_refl in Hc by reflexivity.
    discriminate Hc. apply in_or_app. right. left. reflexivity.
Qed.

Lemma X7_witness :
  mark_entry verify_ann "2026-10-18" "09:00:00" two_members
  = (EntryMarked ann, save_attendance two_members [ann_in])
  /\ mark_exit verify_ann "2026-10-18" "18:00:00" (save_attendance two_members [ann_in])
     = (ExitMarked ann, save_attendance (save_attendance two_members [ann_in])
          (load_attendance two_members ++ [close_rec "18:00:00" ann_in])%list)
  /\ mark_entry verify_ann "2026-10-18" "19:00:00"
       (save_attendance (save_attendance two_members [ann_in])
          (load_attendance two_members ++ [close_rec "18:00:00" ann_in])%list)
     = (EntryAlreadyMarked, save_attendance (save_attendance two_members [ann_in])
          (load_attendance two_members ++ [close_rec "18:00:00" ann_in])%list).
Proof.
  assert (H : mark_entry verify_ann "2026-10-18" "09:00:00" two_members
              = (EntryMarked ann, save_attendance two_members [ann_in]))
    by (vm_compute; reflexivity).
  split; [exact H|].
  exact (X7_entry_exit_reentry verify_ann "2026-10-18" "09:00:00" "18:00:00" "19:00:00"
           two_members _ ann H).
Defined.

(** ** Delete Member *)

(** X8: when [deleted_members.csv] has a header, deleting an ID from a
    non-empty table keeps, in order, the rows with another ID, appends all
    rows with that ID (in order) to the archive, and leaves attendance
    and photos alone; an ID with no row leaves both tables' contents as
    they were. *)
Theorem X8_delete_with_archive :
  forall (selected_id : Z) (st : store) (archive : list member),
    load_members st <> [] -> deleted_csv st = Table archive ->
    delete_member selected_id st
    = (Deleted,
       mkStore (Table (filter (fun r => negb (Z.eqb (m_ID r) selected_id)) (load_members st)))
               (attendance_csv st)
               (Table (archive ++ filter (fun r => Z.eqb (m_ID r) selected_id) (load_members st)))
               (member_images st)).
Proof.
  intros selected_id st archive Hne Hd. unfold delete_member.
  destruct (load_members st) as [|m ms] eqn:E; [contradiction|].
  destruct (filter (fun r => Z.eqb (m_ID r) selected_id) (m :: ms)) as [|x xs] eqn:Hf.
  - unfold save_members, set_members. rewrite Hd, app_nil_r. reflexivity.
  - rewrite Hd. reflexivity.
Qed.

(** Ann and Bob, with an archive file that has its header. *)
Definition two_members_archive : store := set_deleted two_members (Table []).

Lemma X8_witness :
  load_members two_members_archive <> [] /\ deleted_csv two_members_archive = Table []
  /\ delete_member 1 two_members_archive
     = (Deleted,
        mkStore (Table (filter (fun r => negb (Z.eqb (m_ID r) 1)) (load_members two_members_archive)))
                (attendance_csv two_members_archive)
                (Table ([] ++ filter (fun r => Z.eqb (m_ID r) 1) (load_members two_members_archive)))
                (member_images two_members_archive)).
Proof.
  assert (H1 : load_members two_members_archive <> []) by discriminate.
  assert (H2 : deleted_csv two_members_archive = Table []) by reflexivity.
  split; [exact H1|]. split; [exact H2|].
  exact (X8_delete_with_archive 1 two_members_archive [] H1 H2).
Defined.

(** X9: IDs are reused.  With live IDs 1..k (k >= 2), deleting ID 1 and
    then registering a member whose photo can be saved assigns ID k, which
    the last live member still carries, whatever happens to the archive. *)
Theorem X9_id_reused_after_delete :
  forall (st : store) (k : nat) (i : reg_input),
    map m_ID (load_members st) = map Z.of_nat (seq 1 k) -> (2 <= k)%nat ->
    reg_valid i = true -> img_save_ok (photo_file (Z.of_nat k) (r_name i)) = true ->
    let st1 := snd (delete_member 1 st) in
    fst (register_input i st1) = Registered (Z.of_nat k)
    /\ exists x, In x (load_members st1) /\ m_ID x = Z.of_nat k.
Proof.
  intros st k i Hids Hk Hv Hs st1.
  destruct k as [|[|k']]; [lia | lia |].
  destruct (load_members st) as [|m1 rest] eqn:E; [discriminate|].
  simpl in Hids. injection Hids as H1 Hrest0.
  assert (Hrest : map m_ID rest = map Z.of_nat (seq 2 (S k'))) by (rewrite Hrest0; reflexivity).
  assert (Hlen : List.length rest = S k').
  { rewrite <- (length_seq (S k') 2), <- (length_map Z.of_nat), <- Hrest, length_map. reflexivity. }
  assert (Hge : forall x, In x rest -> m_ID x <> 1%Z).
  { intros x Hx. apply (in_map m_ID) in Hx. rewrite Hrest in Hx.
    apply in_map_iff in Hx as (n & Hn & Hin). apply in_seq in Hin. lia. }
  assert (Hst1 : load_members st1 = rest).
  { subst st1. rewrite delete_member_members, E. simpl. rewrite H1. simpl.
    apply filter_all_true. intros x Hx. apply negb_true_iff, Z.eqb_neq, Hge, Hx. }
  assert (Hn : next_id st1 = Z.of_nat (S (S k'))).
  { unfold next_id. rewrite Hst1, Hlen. lia. }
  split.
  - rewrite <- Hn in Hs. destruct (register_input_valid i st1 Hv Hs) as (pic & _ & Hreg).
    rewrite Hreg, Hn. reflexivity.
  - rewrite Hst1.
    assert (Hin : In (Z.of_nat (S (S k'))) (map m_ID rest)).
    { rewrite Hrest. apply in_map, in_seq. lia. }
    apply in_map_iff in Hin as (x & Hx & Hin). exists x. auto.
Qed.

Lemma X9_witness :
  map m_ID (load_members two_members) = map Z.of_nat (seq 1 2) /\ (2 <= 2)%nat
  /\ reg_valid ann_reg = true /\ img_save_ok (photo_file (Z.of_nat 2) (r_name ann_reg)) = true
  /\ (fst (register_input ann_reg (snd (delete_member 1 two_members))) = Registered (Z.of_nat 2)
      /\ exists x, In x (load_members (snd (delete_member 1 two_members))) /\ m_ID x = Z.of_nat 2).
Proof.
  assert (H1 : map m_ID (load_members two_members) = map Z.of_nat (seq 1 2)) by reflexivity.
  assert (H2 : (2 <= 2)%nat) by lia.
  assert (H3 : reg_valid ann_reg = true) by reflexivity.
  assert (H4 : img_save_ok (photo_file (Z.of_nat 2) (r_name ann_reg)) = true)
    by (vm_compute; reflexivity).
  split; [exact H1|]. split; [exact H2|]. split; [exact H3|]. split; [exact H4|].
  exact (X9_id_reused_after_delete two_members 2 ann_reg H1 H2 H3 H4).
Defined.

(** ** After Reset DB *)

(** X10: after Reset DB, the entry and exit pages report that no member is
    registered and write only their probe photo; update and delete report
    the same and change nothing; the next registration whose photo can be
    saved gets ID 1 and is the only member. *)
Theorem X10_after_reset :
  forall (w : world) (verify : string -> bool * Q) (today now_time photo : string)
         (selected_id : Z) (name email mobile membership : string) (fee : Z) (i : reg_input),
    entry_page verify today now_time photo (reset_page w)
    = (EntryNoMembers, mkWorld (reset (disk w)) (Some photo) (temp_exit w))
    /\ exit_page verify today now_time photo (reset_page w)
       = (ExitNoMembers, mkWorld (reset (disk w)) (temp_entry w) (Some photo))
    /\ update_member selected_id name email mobile membership fee (disk (reset_page w))
       = (UpdNoMembers, disk (reset_page w))
    /\ delete_member selected_id (disk (reset_page w)) = (DelNoMembers, disk (reset_page w))
    /\ (reg_valid i = true -> img_save_ok (photo_file 1 (r_name i)) = true ->
        fst (register_input i (disk (reset_page w))) = Registered 1
        /\ map m_ID (load_members (snd (register_input i (disk (reset_page w))))) = [1%Z]).
Proof.
  intros. split; [reflexivity|]. split; [reflexivity|]. split; [reflexivity|].
  split; [reflexivity|].
  intros Hv Hs. destruct (register_input_valid i (disk (reset_page w)) Hv Hs) as (pic & _ & Hreg).
  rewrite Hreg. split; reflexivity.
Qed.

(** A working directory holding Ann and Bob and both probe photos. *)
Definition two_members_world : world := mkWorld two_members (Some "probe 1") (Some "probe 2").

Lemma X10_witness :
  reg_valid ann_reg = true /\ img_save_ok (photo_file 1 (r_name ann_reg)) = true
  /\ fst (register_input ann_reg (disk (reset_page two_members_world))) = Registered 1
  /\ map m_ID (load_members (snd (register_input ann_reg (disk (reset_page two_members_world)))))
     = [1%Z].
Proof.
  assert (Hv : reg_valid ann_reg = true) by reflexivity.
  assert (Hs : img_save_ok (photo_file 1 (r_name ann_reg)) = true) by (vm_compute; reflexivity).
  split; [exact Hv|]. split; [exact Hs|].
  destruct (X10_after_reset two_members_world verify_ann "2026-10-18" "09:00:00" "probe 3"
              1 "" "" "" "" 0 ann_reg) as (_ & _ & _ & _ & H).
  exact (H Hv Hs).
Defined.

(** ** The archive never fills from a fresh start *)

(** X11: while [deleted_members.csv] is the header-less file written at
    start-up or by reset, no operation of the script writes it: register,
    update, delete (which raises on it), entry and exit all leave it
    header-less, so the archive never receives a record. *)
Theorem X11_headerless_archive_stays :
  forall (st : store) (verify : string -> bool * Q) (today now_time : string)
         (selected_id : Z) (name email mobile membership : string) (fee : Z) (i : reg_input),
    deleted_csv st = NoColumns ->
    deleted_csv (snd (register_input i st)) = NoColumns
    /\ deleted_csv (snd (update_member selected_id name email mobile membership fee st)) = NoColumns
    /\ deleted_csv (snd (delete_member selected_id st)) = NoColumns
    /\ deleted_csv (snd (mark_entry verify today now_time st)) = NoColumns
    /\ deleted_csv (snd (mark_exit verify today now_time st)) = NoColumns
    /\ deleted_csv (reset st) = NoColumns.
Proof.
  intros st verify today now_time selected_id name email mobile membership fee i Hd.
  split; [|split; [|split; [|split; [|split]]]].
  - unfold register_input, register. destruct (r_photo i); [|exact Hd].
    destruct (negb _); [exact Hd|]. destruct (negb (img_save_ok _)); exact Hd.
  - unfold update_member. destruct (load_members st); exact Hd.
  - unfold delete_member. destruct (load_members st); [exact Hd|].
    destruct (filter _ _); [exact Hd|]. rewrite Hd. exact Hd.
  - unfold mark_entry. destruct (load_members st); [exact Hd|].
    destruct (best_match verify _); [|exact Hd]. destruct (filter _ _); exact Hd.
  - unfold mark_exit. destruct (load_members st); [exact Hd|].
    destruct (best_match verify _); [|exact Hd]. destruct (update_first _ _ _); exact Hd.
  - reflexivity.
Qed.

Lemma X11_witness :
  deleted_csv two_members = NoColumns
  /\ deleted_csv (snd (register_input ann_reg two_members)) = NoColumns
  /\ deleted_csv (snd (update_member 1 "Ann" "ann@example.com" "9000000001" "Yearly" 100 two_members))
     = NoColumns
  /\ deleted_csv (snd (delete_member 1 two_members)) = NoColumns
  /\ deleted_csv (snd (mark_entry verify_ann "2026-10-18" "09:00:00" two_members)) = NoColumns
  /\ deleted_csv (snd (mark_exit verify_ann "2026-10-18" "09:00:00" two_members)) = NoColumns
  /\ deleted_csv (reset two_members) = NoColumns.
Proof.
  assert (Hd : deleted_csv two_members = NoColumns) by reflexivity.
  split; [exact Hd|].
  exact (X11_headerless_archive_stays two_members verify_ann "2026-10-18" "09:00:00" 1
           "Ann" "ann@example.com" "9000000001" "Yearly" 100 ann_reg Hd).
Defined.
